(** * list_models.py: a shallow embedding and its properties

    The script under study is

    <<
    from anthropic import Anthropic
    import os

    client = Anthropic(api_key=os.getenv('ANTHROPIC_API_KEY'))
    for m in client.models.list().model_data:
        print(m['id'])
    >>

    It is embedded as a computation in a state-and-exception monad over a
    process state (environment, files, standard streams, and a log of the
    operations performed, which is ghost state).  The vendor SDK is not part
    of the repository: the two entry points the script uses are fields of a
    [platform] record, and the values they return are plain data ([pyval]).
    A [platform] is the SDK and the interpreter as they behave in one
    process; an SDK that consults the environment is a function from
    environments to platforms.

    Outside the model: the two [import] statements, taken to have succeeded
    (what the interpreter does while importing, such as writing bytecode
    caches, is not described); and failures of [print] itself (a text the
    output encoding rejects, an integer beyond the interpreter's limit on
    decimal conversion), taken not to occur. *)

From Stdlib Require Import ZArith String Ascii List Lia.
From stdpp Require Import base option list strings gmap pretty.

Set Warnings "-register-all".

Local Open Scope Z_scope.
Local Open Scope string_scope.
Local Open Scope list_scope.

(** ** Python values *)

Module Py.

(** The values the script can meet.  A [PyStr] is a sequence of characters,
    one [ascii] per character.  A [PyDict] lists its items in insertion
    order (keys are distinct in a Python dict); a [PyObject] is an instance
    with the given attributes and no special methods. *)
Inductive pyval : Type :=
| PyNone
| PyBool (b : bool)
| PyInt (n : Z)
| PyStr (s : string)
| PyList (xs : list pyval)
| PyDict (kvs : list (string * pyval))
| PyObject (attrs : list (string * pyval)).

(** Exceptions.  [SdkError] stands for whatever the SDK raises, identified
    by its diagnostic; the other three are raised by the interpreter. *)
Inductive exn : Type :=
| SdkError (diagnostic : string)
| AttributeError (name : string)
| TypeError
| KeyError (key : string).

Inductive result (A : Type) : Type :=
| Ok (a : A)
| Raise (e : exn).
Arguments Ok {A} a.
Arguments Raise {A} e.

Definition raised {A} (r : result A) : option exn :=
  match r with Ok _ => None | Raise e => Some e end.

(** First binding of [k] in an item list. *)
Fixpoint assoc (k : string) (kvs : list (string * pyval)) : option pyval :=
  match kvs with
  | [] => None
  | (k', v) :: rest => if String.eqb k k' then Some v else assoc k rest
  end.

(** [v.model_data]: only instances carry such an attribute; no builtin type
    has one. *)
Definition getattr_model_data (v : pyval) : result pyval :=
  match v with
  | PyObject attrs =>
      match assoc "model_data" attrs with
      | Some d => Ok d
      | None => Raise (AttributeError "model_data")
      end
  | _ => Raise (AttributeError "model_data")
  end.

(** [iter(v)] followed by exhausting the iterator: the items a [for]
    statement binds, in order. *)
Definition iterate (v : pyval) : result (list pyval) :=
  match v with
  | PyList xs => Ok xs
  | PyDict kvs => Ok (map (fun kv => PyStr (fst kv)) kvs)
  | PyStr s => Ok (map (fun c => PyStr (String c "")) (list_ascii_of_string s))
  | PyNone | PyBool _ | PyInt _ | PyObject _ => Raise TypeError
  end.

(** [m[key]] for a string key. *)
Definition getitem (m : pyval) (key : string) : result pyval :=
  match m with
  | PyDict kvs =>
      match assoc key kvs with
      | Some v => Ok v
      | None => Raise (KeyError key)
      end
  | _ => Raise TypeError
  end.

End Py.
Export Py.

(** ** The platform: SDK and interpreter parts outside the repository *)

Definition kwargs : Type := list (string * pyval).

Record platform : Type := Platform {
  (** the type of client objects *)
  client : Type;
  (** [Anthropic(api_key=k)] *)
  Anthropic : option string -> result client;
  (** [c.models.list(...)] called with the keyword arguments [kw] *)
  models_list : client -> kwargs -> result pyval;
  (** [str(v)] for lists, dicts and instances *)
  repr_compound : pyval -> string
}.

(** [str(v)], as [print] applies it.  The conversion is taken to succeed:
    the interpreter's refusal to convert an integer of more than 4300
    digits is not described. *)
Definition py_str (w : platform) (v : pyval) : string :=
  match v with
  | PyNone => "None"
  | PyBool true => "True"
  | PyBool false => "False"
  | PyInt n => pretty n
  | PyStr s => s
  | PyList _ | PyDict _ | PyObject _ => repr_compound w v
  end.

(** The line terminator [print] appends. *)
Definition newline : string := String "010"%char "".

(** ** Process state and the operation log *)

(** One entry per operation the script performs. *)
Inductive op : Type :=
| OpGetenv (name : string)
| OpAnthropic (api_key : option string)
| OpModelsList (kw : kwargs)
| OpModelData
| OpIter
| OpGetitem (m : pyval) (key : string)
| OpPrint (text : string).

(** An operation together with the exception it raised, if any. *)
Record event : Type := Ev { ev_op : op; ev_raised : option exn }.

(** What is observable of the process: its environment, the files and
    other persistent stores it can reach (by name), the text written to
    standard output, and the log of operations.  [stderr] holds one entry
    per traceback the interpreter reports: the exception it renders. *)
Record process : Type := Process {
  environ : gmap string string;
  files : gmap string string;
  stdout : string;
  stderr : list exn;
  trace : list event
}.

Definition log (ev : event) (p : process) : process :=
  Process (environ p) (files p) (stdout p) (stderr p) (trace p ++ [ev]).

Definition write_stdout (text : string) (p : process) : process :=
  Process (environ p) (files p) (stdout p +:+ text) (stderr p) (trace p).

Definition write_stderr (e : exn) (p : process) : process :=
  Process (environ p) (files p) (stdout p) (stderr p ++ [e]) (trace p).

(** ** The monad of script computations *)

Definition Script (A : Type) : Type := process -> result A * process.

Definition ret {A} (a : A) : Script A := fun p => (Ok a, p).

Definition bind {A B} (c : Script A) (k : A -> Script B) : Script B :=
  fun p =>
    match c p with
    | (Ok a, p') => k a p'
    | (Raise e, p') => (Raise e, p')
    end.

Notation "x <~ c ;; k" := (bind c (fun x => k))
  (at level 100, c at next level, right associativity, only parsing).

(** Perform a pure operation that may raise, and log it. *)
Definition perform {A} (o : op) (r : result A) : Script A :=
  fun p => (r, log (Ev o (raised r)) p).

Section Script.

Variable w : platform.

(** [os.getenv(name)]: the value, or [None] when the variable is unset. *)
Definition os_getenv (name : string) : Script (option string) :=
  fun p => perform (OpGetenv name) (Ok (environ p !! name)) p.

Definition new_Anthropic (api_key : option string) : Script (client w) :=
  perform (OpAnthropic api_key) (Anthropic w api_key).

Definition call_models_list (c : client w) (kw : kwargs) : Script pyval :=
  perform (OpModelsList kw) (models_list w c kw).

Definition model_data (page : pyval) : Script pyval :=
  perform OpModelData (getattr_model_data page).

Definition iter (data : pyval) : Script (list pyval) :=
  perform OpIter (iterate data).

Definition subscript (m : pyval) (key : string) : Script pyval :=
  perform (OpGetitem m key) (getitem m key).

(** [print(v)]: [str(v)] and a newline, on standard output.  The write is
    taken to succeed, whatever the encoding of the stream. *)
Definition print (v : pyval) : Script unit :=
  fun p =>
    let text := py_str w v +:+ newline in
    (Ok tt, log (Ev (OpPrint text) None) (write_stdout text p)).

(** [for m in items: body(m)] *)
Fixpoint for_each (items : list pyval) (body : pyval -> Script unit)
  : Script unit :=
  match items with
  | [] => ret tt
  | m :: rest => _ <~ body m ;; for_each rest body
  end.

(** The loop body, [print(m['id'])]. *)
Definition body (m : pyval) : Script unit :=
  id <~ subscript m "id" ;; print id.

(** The module body of list_models.py, from line 5 on: the two imports are
    taken to have succeeded. *)
Definition list_models : Script unit :=
  api_key <~ os_getenv "ANTHROPIC_API_KEY" ;;
  client <~ new_Anthropic api_key ;;
  page <~ call_models_list client [] ;;
  data <~ model_data page ;;
  items <~ iter data ;;
  for_each items body.

(** ** Running the script as a process *)

Definition start (env fs : gmap string string) : process :=
  Process env fs "" [] [].

Record outcome : Type := Outcome { exit_status : Z; final : process }.

(** Normal completion exits with status 0.  An uncaught exception makes the
    interpreter report it on standard error and exit with status 1. *)
Definition run (env fs : gmap string string) : outcome :=
  match list_models (start env fs) with
  | (Ok _, p) => Outcome 0 p
  | (Raise e, p) => Outcome 1 (write_stderr e p)
  end.

End Script.

(** ** Observations on a run *)

Definition KEY : string := "ANTHROPIC_API_KEY".

(** The sub-sequence of a log picked out by [f]. *)
Fixpoint select {A : Type} (f : event -> option A) (tr : list event)
  : list A :=
  match tr with
  | [] => []
  | ev :: rest =>
      match f ev with
      | Some a => a :: select f rest
      | None => select f rest
      end
  end.

(** The environment variables read, in order. *)
Definition env_reads (tr : list event) : list string :=
  select (fun ev => match ev_op ev with OpGetenv n => Some n | _ => None end) tr.

(** The keyword arguments of each list-models call, in order. *)
Definition list_calls (tr : list event) : list kwargs :=
  select (fun ev => match ev_op ev with OpModelsList kw => Some kw | _ => None end) tr.

(** The credentials handed to the client constructor, in order. *)
Definition constructions (tr : list event) : list (option string) :=
  select (fun ev => match ev_op ev with OpAnthropic k => Some k | _ => None end) tr.

(** The items the loop body was entered with, in order. *)
Definition visits (tr : list event) : list pyval :=
  select (fun ev => match ev_op ev with OpGetitem m _ => Some m | _ => None end) tr.

(** The texts handed to standard output, one per [print], in order. *)
Definition printed (tr : list event) : list string :=
  select (fun ev => match ev_op ev with OpPrint t => Some t | _ => None end) tr.

(** The exceptions raised by the operations of a run, in order. *)
Definition failures (tr : list event) : list exn := select ev_raised tr.

Definition is_newline (c : ascii) : bool := Ascii.eqb "010"%char c.
Arguments is_newline : simpl never.

Definition has_newline (s : string) : bool :=
  existsb is_newline (list_ascii_of_string s).

(** The lines of a text: maximal runs of characters other than the line
    terminator, each closed by a terminator (the last one possibly not). *)
Fixpoint lines (s : string) : list string :=
  match s with
  | EmptyString => []
  | String c rest =>
      if is_newline c then "" :: lines rest
      else match lines rest with
           | [] => [String c ""]
           | l :: ls => String c l :: ls
           end
  end.

(** The text of one output line per identifier. *)
Definition line_of (i : string) : string := i +:+ newline.

Fixpoint join (ls : list string) : string :=
  match ls with
  | [] => ""
  | l :: rest => l +:+ join rest
  end.

(** What two runs are compared on: everything but the log of internal
    operations. *)
Definition observable (o : outcome) : Z * string * list exn :=
  (exit_status o, stdout (final o), stderr (final o)).

(** Pure summary of the loop: the exception that stopped it (if any), the
    text it printed and the operations it performed. *)
Fixpoint loop_effect (w : platform) (items : list pyval)
  : option exn * string * list event :=
  match items with
  | [] => (None, "", [])
  | m :: rest =>
      match getitem m "id" with
      | Raise e => (Some e, "", [Ev (OpGetitem m "id") (Some e)])
      | Ok v =>
          let '(r, text, evs) := loop_effect w rest in
          (r, line_of (py_str w v) +:+ text,
           Ev (OpGetitem m "id") None
             :: Ev (OpPrint (line_of (py_str w v))) None :: evs)
      end
  end.

Definition result_of (r : option exn) : result unit :=
  match r with None => Ok tt | Some e => Raise e end.

(** The same platform, with the list-models call answering [page]. *)
Definition with_response (w : platform) (page : pyval) : platform :=
  Platform (client w) (Anthropic w) (fun _ _ => Ok page) (repr_compound w).

(** ** Concrete platforms, used to exercise the statements *)

Module Scenario.

(** A model record as the script reads it: a dict with an ["id"] item. *)
Definition record_of (i : string) : pyval :=
  PyDict [("type", PyStr "model"); ("id", PyStr i);
          ("created_at", PyInt 1709164800)].

(** Another record with the same identifier and other attributes. *)
Definition bare_record_of (i : string) : pyval :=
  PyDict [("id", PyStr i); ("display_name", PyNone)].

Definition page_of (items : list pyval) : pyval :=
  PyObject [("has_more", PyBool false); ("model_data", PyList items)].

Definition no_repr (v : pyval) : string := "<object>".

(** An SDK that refuses to build a client without a key, and then lists
    the given models. *)
Definition strict_sdk (ids : list string) : platform :=
  Platform (option string)
    (fun k =>
       match k with
       | Some _ => Ok k
       | None => Raise (SdkError "The api_key client option must be set")
       end)
    (fun _ _ => Ok (page_of (map record_of ids)))
    no_repr.

(** An SDK that accepts an absent key (it authenticates otherwise). *)
Definition lenient_sdk (ids : list string) : platform :=
  Platform (option string)
    (fun k => Ok k)
    (fun _ _ => Ok (page_of (map record_of ids)))
    no_repr.

(** An SDK whose remote call fails. *)
Definition offline_sdk : platform :=
  Platform (option string)
    (fun k => Ok k)
    (fun _ _ => Raise (SdkError "Connection error."))
    no_repr.

Definition with_key : gmap string string :=
  {[ "ANTHROPIC_API_KEY" := "sk-test"; "HOME" := "/root" ]}.


Definition without_key : gmap string string :=
  {[ "HOME" := "/root" ]}.

Definition no_files : gmap string string := ∅.

Definition two_models : list string := ["claude-3-opus"; "claude-3-sonnet"].

(** An identifier that spans two lines. *)
Definition split_identifier : string := "a" +:+ newline +:+ "b".

End Scenario.

(** The text one [print] of the value [v] puts on standard output. *)
Definition text_of (w : platform) (v : pyval) : string :=
  line_of (py_str w v).

(** ** Further platforms: responses of other shapes *)

Module Edge.

(** Two well-formed records, an item that is no dict, one more record. *)
Definition good_records : list pyval :=
  [Scenario.record_of "claude-3-opus"; Scenario.record_of "claude-3-haiku"].

Definition broken_items : list pyval :=
  good_records ++ PyStr "claude-3-sonnet" :: [Scenario.record_of "claude-2"].

(** A page whose [model_data] is a mapping from identifier to record. *)
Definition keyed_page : pyval :=
  PyObject [("model_data",
             PyDict [("claude-3-opus", Scenario.record_of "claude-3-opus")])].

(** A page in which [model_data] is null. *)
Definition null_page : pyval := PyObject [("model_data", PyNone)].

Definition with_other_key : gmap string string :=
  {[ "ANTHROPIC_API_KEY" := "sk-other" ]}.

Definition with_empty_key : gmap string string :=
  {[ "ANTHROPIC_API_KEY" := "" ]}.

End Edge.

(** ** The pages of the vendor SDK *)

Module Vendor.

(** A model record as the SDK builds it: an instance whose fields are
    attributes ([m.id]); it is not subscriptable. *)
Definition model_info (i : string) : pyval :=
  PyObject [("id", PyStr i); ("type", PyStr "model");
            ("display_name", PyStr i)].

(** The page the list-models call answers with: an instance that holds the
    records in its attribute [data], next to the paging cursors.  It has no
    attribute [model_data]. *)
Definition page (records : list pyval) (has_more : bool)
    (first_id last_id : pyval) : pyval :=
  PyObject [("data", PyList records); ("has_more", PyBool has_more);
            ("first_id", first_id); ("last_id", last_id)].

Definition page_of (ids : list string) : pyval :=
  page (map model_info ids) false
    (from_option PyStr PyNone (head ids))
    (from_option PyStr PyNone (last ids)).


(** An SDK that builds a client from any credential, refuses the call when
    the client has none, and otherwise answers with a page. *)
Definition sdk (ids : list string) : platform :=
  Platform (option string)
    (fun k => Ok k)
    (fun k _ =>
       match k with
       | Some _ => Ok (page_of ids)
       | None =>
           Raise (SdkError "Could not resolve authentication method.")
       end)
    Scenario.no_repr.



End Vendor.

(** ** Strings and lines *)

Lemma append_cons (c : ascii) (s t : string) :
  String c s +:+ t = String c (s +:+ t).
Proof. reflexivity. Qed.

Lemma append_empty_r (s : string) : s +:+ "" = s.
Proof.
  induction s as [|c s IH]; [reflexivity|].
  rewrite append_cons. now rewrite IH.
Qed.

Lemma append_assoc (s t u : string) : (s +:+ t) +:+ u = s +:+ (t +:+ u).
Proof.
  induction s as [|c s IH]; [reflexivity|].
  rewrite !append_cons. now rewrite IH.
Qed.

Lemma lines_line_of (i rest : string) :
  has_newline i = false -> lines (line_of i +:+ rest) = i :: lines rest.
Proof.
  unfold line_of, has_newline.
  induction i as [|c i IH]; simpl; intros Hnl.
  - reflexivity.
  - apply orb_false_iff in Hnl as [Hc Hi].
    rewrite Hc.
    now rewrite (IH Hi).
Qed.

Lemma lines_join (ids : list string) :
  forallb (fun i => negb (has_newline i)) ids = true ->
  lines (join (map line_of ids)) = ids.
Proof.
  induction ids as [|i ids IH]; simpl; intros H; [reflexivity|].
  apply andb_true_iff in H as [Hi Hids].
  apply negb_true_iff in Hi.
  rewrite lines_line_of by exact Hi.
  now rewrite IH.
Qed.

(** ** The loop *)

Section Loop.

Variable w : platform.

Lemma for_each_effect (items : list pyval) (p : process) :
  for_each items (body w) p =
    let '(r, text, evs) := loop_effect w items in
    (result_of r,
     Process (environ p) (files p) (stdout p +:+ text) (stderr p)
       (trace p ++ evs)).
Proof.
  revert p. induction items as [|m rest IH]; intros p; simpl.
  - unfold ret. rewrite append_empty_r, app_nil_r. now destruct p.
  - unfold bind at 1. unfold body at 1, bind, subscript, perform, print.
    destruct (getitem m "id") as [v|e]; simpl.
    + rewrite IH. destruct (loop_effect w rest) as [[r text] evs]. simpl.
      unfold line_of. rewrite append_assoc, <- !app_assoc. reflexivity.
    + rewrite append_empty_r. reflexivity.
Qed.

End Loop.

(** Facts about the pure summary of the loop. *)
Section LoopFacts.

Variable w : platform.

(** The loop reads no environment variable and calls nothing in the SDK. *)
Lemma loop_no_calls (items : list pyval) :
  let '(_, _, evs) := loop_effect w items in
  env_reads evs = [] /\ list_calls evs = [] /\ constructions evs = [].
Proof.
  induction items as [|m rest IH]; simpl; [easy|].
  destruct (getitem m "id"); [|easy].
  destruct (loop_effect w rest) as [[r text] evs]. exact IH.
Qed.

(** At most one operation of the loop raises, it is the last one, and it
    is the exception the loop ends with. *)
Lemma loop_failures (items : list pyval) :
  let '(r, _, evs) := loop_effect w items in
  match r with
  | None => failures evs = []
  | Some e =>
      exists pre ev,
        evs = pre ++ [ev] /\ ev_raised ev = Some e /\ failures pre = []
  end.
Proof.
  induction items as [|m rest IH]; simpl; [easy|].
  destruct (getitem m "id") as [v|e].
  - destruct (loop_effect w rest) as [[[e|] text] evs]; [|exact IH].
    destruct IH as (pre & ev & -> & Hev & Hpre).
    exists (Ev (OpGetitem m "id") None
              :: Ev (OpPrint (line_of (py_str w v))) None :: pre), ev.
    easy.
  - exists [], (Ev (OpGetitem m "id") (Some e)). easy.
Qed.




(** When every item yields a string identifier, the loop completes and
    prints one line per identifier. *)
Lemma loop_identifiers (items : list pyval) (ids : list string) :
  Forall2 (fun m i => getitem m "id" = Ok (PyStr i)) items ids ->
  exists evs,
    loop_effect w items = (None, join (map line_of ids), evs)
    /\ printed evs = map line_of ids.
Proof.
  induction 1 as [|m i items ids Hm _ (evs & IH & Hevs)]; simpl.
  - now exists [].
  - rewrite Hm, IH. eexists. split; [reflexivity|].
    unfold printed in *. simpl. now rewrite Hevs.
Qed.


End LoopFacts.

(** Only the outcome of [m['id']] on each item matters to what is printed
    and to how the loop ends. *)
Lemma loop_same_identifiers (w1 w2 : platform) (items1 items2 : list pyval) :
  (forall v, py_str w1 v = py_str w2 v) ->
  Forall2 (fun m1 m2 => getitem m1 "id" = getitem m2 "id") items1 items2 ->
  fst (loop_effect w1 items1) = fst (loop_effect w2 items2).
Proof.
  intros Hstr.
  induction 1 as [|m1 m2 items1 items2 Hm _ IH]; simpl; [reflexivity|].
  rewrite Hm. destruct (getitem m2 "id") as [v|e]; [|reflexivity].
  destruct (loop_effect w1 items1) as [[r1 t1] evs1].
  destruct (loop_effect w2 items2) as [[r2 t2] evs2].
  simpl in *. rewrite Hstr. congruence.
Qed.

(** ** The script, step by step *)

Ltac unfold_script :=
  unfold run, list_models, start, bind, os_getenv, new_Anthropic,
    call_models_list, model_data, iter, perform, log, KEY in *;
  simpl.

(** Replace the loop by its summary. *)
Ltac summarize_loop w items :=
  rewrite (for_each_effect w items);
  let r := fresh "r" in
  let text := fresh "text" in
  let evs := fresh "evs" in
  destruct (loop_effect w items) as [[r text] evs] eqn:?;
  simpl.

(** Case analysis on the four operations that precede the loop. *)
Ltac cases_before_loop w env :=
  destruct (Anthropic w (env !! "ANTHROPIC_API_KEY")) as [?c|?e] eqn:?;
  simpl;
  [ destruct (models_list w _ []) as [?page|?e] eqn:?; simpl;
    [ destruct (getattr_model_data _) as [?data|?e] eqn:?; simpl;
      [ destruct (iterate _) as [?items|?e] eqn:?; simpl | ]
    | ]
  | ].

Lemma failures_app (tr1 tr2 : list event) :
  failures (tr1 ++ tr2) = failures tr1 ++ failures tr2.
Proof.
  unfold failures. induction tr1 as [|ev tr1 IH]; simpl; [reflexivity|].
  destruct (ev_raised ev); simpl; now rewrite IH.
Qed.

Lemma failures_elem (tr : list event) (ev : event) (e : exn) :
  ev ∈ tr -> ev_raised ev = Some e -> e ∈ failures tr.
Proof.
  unfold failures. intros Hin Hev.
  induction Hin as [ev tr|ev ev' tr _ IH]; simpl.
  - rewrite Hev. apply list_elem_of_here.
  - destruct (ev_raised ev'); [apply list_elem_of_further|]; exact (IH Hev).
Qed.

(** The shape of every run: either no operation raised and the process
    exits with status 0, or exactly one did, it was the last one, and the
    process reports that exception and exits with status 1. *)
Lemma run_shape (w : platform) (env fs : gmap string string) :
  let o := run w env fs in
  (failures (trace (final o)) = [] /\ exit_status o = 0
   /\ stderr (final o) = [])
  \/ (exists pre ev e,
        trace (final o) = pre ++ [ev] /\ ev_raised ev = Some e
        /\ failures pre = [] /\ exit_status o = 1
        /\ stderr (final o) = [e]).
Proof.
  unfold_script. cases_before_loop w env.
  - summarize_loop w items.
    pose proof (loop_failures w items) as HF. rewrite Heqp in HF.
    unfold failures in *. destruct r as [e|]; simpl.
    + right. destruct HF as (pre & ev & -> & Hev & Hpre).
      eexists (_ :: _ :: _ :: _ :: _ :: pre), ev, e. simpl.
      repeat split; try assumption.
    + left. now rewrite HF.
  - right. eexists [_; _; _; _], _, e. simpl. easy.
  - right. eexists [_; _; _], _, e. simpl. easy.
  - right. eexists [_; _], _, e. simpl. easy.
  - right. eexists [_], _, e. simpl. easy.
Qed.

(** ** The scenarios of the specification, evaluated *)

Example lines_of_two : lines ("a" +:+ newline +:+ "b" +:+ newline) = ["a"; "b"].
Proof. reflexivity. Qed.

Example lines_of_blank : lines newline = [""] /\ lines "" = [].
Proof. split; reflexivity. Qed.

(** A valid key and two models: both identifiers on standard output, one
    per line, and exit status 0. *)
Example valid_key_two_models :
  let o := run (Scenario.strict_sdk Scenario.two_models)
             Scenario.with_key Scenario.no_files in
  stdout (final o)
    = "claude-3-opus" +:+ newline +:+ "claude-3-sonnet" +:+ newline
  /\ exit_status o = 0 /\ stderr (final o) = [].
Proof. vm_compute. repeat split; reflexivity. Qed.

(** The variable unset, with an SDK that insists on a key: no output and a
    non-zero exit status. *)
Example unset_key_strict_sdk :
  let o := run (Scenario.strict_sdk Scenario.two_models)
             Scenario.without_key Scenario.no_files in
  stdout (final o) = "" /\ exit_status o = 1.
Proof. vm_compute. split; reflexivity. Qed.

(** A record without an identifier stops the loop where it stands: what
    was printed before stays on standard output. *)
Example record_without_identifier :
  let page :=
    Scenario.page_of [Scenario.record_of "claude-3-opus"; PyDict [];
                      Scenario.record_of "claude-3-sonnet"] in
  let o := run (with_response (Scenario.strict_sdk []) page)
             Scenario.with_key Scenario.no_files in
  stdout (final o) = line_of "claude-3-opus"
  /\ exit_status o = 1 /\ stderr (final o) = [KeyError "id"].
Proof. vm_compute. repeat split; reflexivity. Qed.

(** A response without a [model_data] attribute: the call is made, nothing
    is printed. *)
Example response_without_model_data :
  let page := PyObject [("data", PyList [Scenario.record_of "claude-3-opus"])] in
  let o := run (with_response (Scenario.strict_sdk []) page)
             Scenario.with_key Scenario.no_files in
  stdout (final o) = "" /\ exit_status o = 1
  /\ stderr (final o) = [AttributeError "model_data"]
  /\ list_calls (trace (final o)) = [[]].
Proof. vm_compute. repeat split; reflexivity. Qed.

(** ** On the pages of the vendor SDK *)

(** C1.  On the page the SDK answers with, the script does not list the
    models: whatever the N records, [.model_data] raises, nothing is
    printed, no record is visited and the process exits with status 1.
    Nor would the records be readable as the loop body reads them:
    [m['id']] raises on an instance. *)
Theorem vendor_page_is_never_listed
    (w : platform) (env fs : gmap string string)
    (records : list pyval) (has_more : bool) (first_id last_id : pyval) :
  let o :=
    run (with_response w (Vendor.page records has_more first_id last_id))
      env fs in
  exit_status o = 1
  /\ stdout (final o) = ""
  /\ printed (trace (final o)) = []
  /\ visits (trace (final o)) = []
  /\ (forall c : client w,
        Anthropic w (env !! KEY) = Ok c ->
        stderr (final o) = [AttributeError "model_data"])
  /\ (forall i : string, getitem (Vendor.model_info i) "id" = Raise TypeError).
Proof.
  unfold_script.
  destruct (Anthropic w (env !! "ANTHROPIC_API_KEY")) as [c|e]; simpl.
  - repeat split.
  - repeat split. intros c Hc. discriminate Hc.
Qed.

Lemma vendor_page_is_never_listed_witness :
  let o := run (with_response (Vendor.sdk Scenario.two_models)
                  (Vendor.page_of Scenario.two_models))
             Scenario.with_key Scenario.no_files in
  stderr (final o) = [AttributeError "model_data"].
Proof.
  apply (proj1 (proj2 (proj2 (proj2 (proj2
           (vendor_page_is_never_listed (Vendor.sdk Scenario.two_models)
              Scenario.with_key Scenario.no_files
              (map Vendor.model_info Scenario.two_models) false
              (PyStr "claude-3-opus") (PyStr "claude-3-sonnet"))))))
           (Some "sk-test")).
  vm_compute. reflexivity.
Defined.

(** C2.  On the page the SDK answers with for an empty model list, no line
    is printed but the process does not exit with status 0: the call is
    made, [.model_data] raises, and the exit status is 1. *)
Theorem empty_vendor_page_exits_nonzero
    (w : platform) (env fs : gmap string string)
    (has_more : bool) (first_id last_id : pyval) :
  let o :=
    run (with_response w (Vendor.page [] has_more first_id last_id))
      env fs in
  exit_status o <> 0
  /\ lines (stdout (final o)) = []
  /\ (forall c : client w,
        Anthropic w (env !! KEY) = Ok c ->
        list_calls (trace (final o)) = [[]]
        /\ failures (trace (final o)) = [AttributeError "model_data"]).
Proof.
  unfold_script.
  destruct (Anthropic w (env !! "ANTHROPIC_API_KEY")) as [c|e]; simpl.
  - repeat split. discriminate.
  - repeat split; try discriminate.
Qed.

Lemma empty_vendor_page_exits_nonzero_witness :
  let o := run (with_response (Vendor.sdk []) (Vendor.page_of []))
             Scenario.with_key Scenario.no_files in
  list_calls (trace (final o)) = [[]]
  /\ failures (trace (final o)) = [AttributeError "model_data"].
Proof.
  apply (proj2 (proj2
           (empty_vendor_page_exits_nonzero (Vendor.sdk [])
              Scenario.with_key Scenario.no_files false PyNone PyNone))
           (Some "sk-test")).
  vm_compute. reflexivity.
Defined.




(** ** Output on a page of the shape the script reads *)

(** On a page of the shape the script reads (an attribute [model_data]
    iterating to dict records whose ["id"] items are the strings [ids]),
    the process exits with
    status 0 after N [print]s, standard output is the concatenation, in
    order, of each identifier followed by a newline, and, provided no
    identifier contains a newline character, the lines of standard output
    are exactly [ids]. *)
Theorem prints_one_line_per_identifier
    (w : platform) (env fs : gmap string string) (c : client w)
    (page data : pyval) (items : list pyval) (ids : list string) :
  Anthropic w (env !! KEY) = Ok c ->
  models_list w c [] = Ok page ->
  getattr_model_data page = Ok data ->
  iterate data = Ok items ->
  Forall2 (fun m i => getitem m "id" = Ok (PyStr i)) items ids ->
  let o := run w env fs in
  exit_status o = 0
  /\ stdout (final o) = join (map line_of ids)
  /\ printed (trace (final o)) = map line_of ids
  /\ (forallb (fun i => negb (has_newline i)) ids = true ->
      lines (stdout (final o)) = ids
      /\ length (lines (stdout (final o))) = length items).
Proof.
  intros HA HL HD HI Hids. unfold_script.
  rewrite HA; simpl. rewrite HL; simpl. rewrite HD; simpl.
  rewrite HI; simpl.
  destruct (loop_identifiers w items ids Hids) as (evs & Hloop & Hevs).
  rewrite (for_each_effect w items), Hloop. simpl. repeat split.
  - exact Hevs.
  - change (lines (join (map line_of ids)) = ids). now apply lines_join.
  - change (length (lines (join (map line_of ids))) = length items).
    rewrite lines_join by assumption.
    symmetry. eapply Forall2_length, Hids.
Qed.

Lemma prints_one_line_per_identifier_witness :
  let w := Scenario.strict_sdk Scenario.two_models in
  let o := run w Scenario.with_key Scenario.no_files in
  exit_status o = 0
  /\ stdout (final o)
     = "claude-3-opus" +:+ newline +:+ "claude-3-sonnet" +:+ newline
  /\ lines (stdout (final o)) = ["claude-3-opus"; "claude-3-sonnet"].
Proof.
  pose proof (prints_one_line_per_identifier
    (Scenario.strict_sdk Scenario.two_models)
    Scenario.with_key Scenario.no_files (Some "sk-test")
    (Scenario.page_of (map Scenario.record_of Scenario.two_models))
    (PyList (map Scenario.record_of Scenario.two_models))
    (map Scenario.record_of Scenario.two_models)
    Scenario.two_models) as H.
  destruct H as (H0 & H1 & _ & H3).
  - vm_compute. reflexivity.
  - reflexivity.
  - reflexivity.
  - reflexivity.
  - repeat constructor.
  - split; [exact H0|]. split; [exact H1|]. apply H3. reflexivity.
Defined.


(** On a page whose [model_data] iterates to no item at all, nothing is
    printed and the process exits with status 0. *)
Theorem empty_list_prints_nothing
    (w : platform) (env fs : gmap string string) (c : client w)
    (page data : pyval) :
  Anthropic w (env !! KEY) = Ok c ->
  models_list w c [] = Ok page ->
  getattr_model_data page = Ok data ->
  iterate data = Ok [] ->
  let o := run w env fs in
  exit_status o = 0
  /\ stdout (final o) = ""
  /\ lines (stdout (final o)) = []
  /\ printed (trace (final o)) = [].
Proof.
  intros HA HL HD HI. unfold_script.
  rewrite HA; simpl. rewrite HL; simpl. rewrite HD; simpl.
  rewrite HI; simpl. easy.
Qed.

Lemma empty_list_prints_nothing_witness :
  let o := run (Scenario.strict_sdk []) Scenario.with_key Scenario.no_files in
  exit_status o = 0 /\ stdout (final o) = ""
  /\ lines (stdout (final o)) = [] /\ printed (trace (final o)) = [].
Proof.
  apply (empty_list_prints_nothing (Scenario.strict_sdk [])
           Scenario.with_key Scenario.no_files (Some "sk-test")
           (Scenario.page_of []) (PyList [])).
  - vm_compute. reflexivity.
  - reflexivity.
  - reflexivity.
  - reflexivity.
Defined.

(** ** Failures *)

(** When the credential variable is absent, the script hands [None] to
    the client constructor, once; if the SDK then rejects
    it, at construction or at the list-models call, the process exits with
    status 1 and nothing is printed. *)
Theorem absent_credential_is_passed_on
    (w : platform) (env fs : gmap string string) :
  env !! KEY = None ->
  let o := run w env fs in
  constructions (trace (final o)) = [None]
  /\ forall e : exn,
       (Anthropic w None = Raise e
        \/ exists c, Anthropic w None = Ok c
                     /\ models_list w c [] = Raise e) ->
       exit_status o = 1
       /\ stdout (final o) = ""
       /\ printed (trace (final o)) = []
       /\ stderr (final o) = [e].
Proof.
  intros Hkey. unfold_script. rewrite Hkey.
  destruct (Anthropic w None) as [c|e0] eqn:HA; simpl.
  - destruct (models_list w c []) as [page|e1] eqn:HL; simpl.
    + split.
      * destruct (getattr_model_data page) as [data|?]; simpl; [|easy].
        destruct (iterate data) as [items|?]; simpl; [|easy].
        summarize_loop w items.
        pose proof (loop_no_calls w items) as HN. rewrite Heqp in HN.
        destruct HN as (_ & _ & HN).
        unfold constructions in *. destruct r; simpl; now rewrite HN.
      * intros e [H|(c' & H & H')]; [discriminate|].
        injection H as <-. congruence.
    + split; [reflexivity|].
      intros e [H|(c' & H & H')]; [discriminate|].
      injection H as <-. rewrite HL in H'. now injection H' as <-.
  - split; [reflexivity|].
    intros e [H|(c' & H & _)]; [|discriminate].
    now injection H as <-.
Qed.

Lemma absent_credential_is_passed_on_witness :
  let o := run (Scenario.strict_sdk Scenario.two_models)
             Scenario.without_key Scenario.no_files in
  Scenario.without_key !! KEY = None
  /\ exit_status o = 1 /\ stdout (final o) = ""
  /\ printed (trace (final o)) = []
  /\ stderr (final o) = [SdkError "The api_key client option must be set"].
Proof.
  split; [vm_compute; reflexivity|].
  apply (absent_credential_is_passed_on
           (Scenario.strict_sdk Scenario.two_models)
           Scenario.without_key Scenario.no_files).
  - vm_compute. reflexivity.
  - left. reflexivity.
Defined.


(** C4.  When the list-models call raises, the process exits with a
    non-zero status and nothing has been written to standard output: no
    [print] was reached. *)
Theorem failed_call_prints_nothing
    (w : platform) (env fs : gmap string string) (c : client w) (e : exn) :
  Anthropic w (env !! KEY) = Ok c ->
  models_list w c [] = Raise e ->
  let o := run w env fs in
  exit_status o <> 0
  /\ stdout (final o) = ""
  /\ printed (trace (final o)) = []
  /\ visits (trace (final o)) = [].
Proof.
  intros HA HL. unfold_script. rewrite HA; simpl. rewrite HL; simpl.
  easy.
Qed.

Lemma failed_call_prints_nothing_witness :
  let o := run Scenario.offline_sdk Scenario.with_key Scenario.no_files in
  exit_status o <> 0 /\ stdout (final o) = ""
  /\ printed (trace (final o)) = [] /\ visits (trace (final o)) = [].
Proof.
  apply (failed_call_prints_nothing Scenario.offline_sdk
           Scenario.with_key Scenario.no_files (Some "sk-test")
           (SdkError "Connection error.")).
  - vm_compute. reflexivity.
  - reflexivity.
Defined.

(** C5.  Whatever operation raises, the exception reaches the process
    boundary unchanged: the raising operation is the last one performed (no
    recovery), it is the only one that raised (no retry), the process exits
    with status 1 and standard error carries exactly that exception (no
    translation).  In particular an exception raised by the SDK, at client
    construction or at the list-models call, is such an operation. *)
Theorem failure_propagates_uncaught
    (w : platform) (env fs : gmap string string) :
  let o := run w env fs in
  (forall (ev : event) (e : exn),
     ev ∈ trace (final o) -> ev_raised ev = Some e ->
     last (trace (final o)) = Some ev
     /\ failures (trace (final o)) = [e]
     /\ exit_status o = 1
     /\ stderr (final o) = [e])
  /\ (forall e : exn,
        Anthropic w (env !! KEY) = Raise e ->
        Ev (OpAnthropic (env !! KEY)) (Some e) ∈ trace (final o))
  /\ (forall (c : client w) (e : exn),
        Anthropic w (env !! KEY) = Ok c ->
        models_list w c [] = Raise e ->
        Ev (OpModelsList []) (Some e) ∈ trace (final o)).
Proof.
  split; [|split].
  - intros ev e Hin Hev.
    destruct (run_shape w env fs) as [(HF & _)|(pre & ev' & e' & Htr & Hev' & Hpre & Hexit & Herr)].
    + pose proof (failures_elem _ _ _ Hin Hev) as Hbad.
      rewrite HF in Hbad. now apply elem_of_nil in Hbad.
    + rewrite Htr in Hin |- *.
      apply elem_of_app in Hin as [Hin|Hin].
      * pose proof (failures_elem _ _ _ Hin Hev) as Hbad.
        rewrite Hpre in Hbad. now apply elem_of_nil in Hbad.
      * apply list_elem_of_singleton in Hin as ->.
        assert (e' = e) as -> by congruence.
        rewrite last_snoc, failures_app, Hpre.
        unfold failures at 1. simpl. rewrite Hev. easy.
  - intros e HA. unfold_script. rewrite HA. simpl. set_solver.
  - intros c e HA HL. unfold_script. rewrite HA; simpl. rewrite HL; simpl.
    set_solver.
Qed.

Lemma failure_propagates_uncaught_witness :
  let o := run Scenario.offline_sdk Scenario.with_key Scenario.no_files in
  last (trace (final o))
    = Some (Ev (OpModelsList []) (Some (SdkError "Connection error.")))
  /\ failures (trace (final o)) = [SdkError "Connection error."]
  /\ exit_status o = 1
  /\ stderr (final o) = [SdkError "Connection error."].
Proof.
  apply (proj1 (failure_propagates_uncaught Scenario.offline_sdk
                  Scenario.with_key Scenario.no_files)).
  - apply (proj2 (proj2 (failure_propagates_uncaught Scenario.offline_sdk
                   Scenario.with_key Scenario.no_files)) (Some "sk-test")).
    + vm_compute. reflexivity.
    + reflexivity.
  - reflexivity.
Defined.

(** ** Calls into the SDK and reads of the environment *)

(** C6 (as amended).  On every run the list-models operation is invoked at
    most once and always without parameters; it is invoked exactly once,
    whether it succeeds or raises, whenever the client was constructed, and
    not at all when client construction raised. *)
Theorem lists_models_at_most_once
    (w : platform) (env fs : gmap string string) :
  let tr := trace (final (run w env fs)) in
  (list_calls tr = [] \/ list_calls tr = [[]])
  /\ (forall c : client w,
        Anthropic w (env !! KEY) = Ok c -> list_calls tr = [[]])
  /\ (forall e : exn,
        Anthropic w (env !! KEY) = Raise e -> list_calls tr = []).
Proof.
  unfold_script. cases_before_loop w env.
  1: { summarize_loop w items.
       pose proof (loop_no_calls w items) as HN. rewrite Heqp in HN.
       destruct HN as (_ & HN & _).
       unfold list_calls in *.
       destruct r; simpl; rewrite HN; split; auto; easy. }
  all: split; [auto|]; split; intros; solve [reflexivity | discriminate].
Qed.

Lemma lists_models_at_most_once_witness :
  list_calls (trace (final (run Scenario.offline_sdk Scenario.with_key
                              Scenario.no_files))) = [[]].
Proof.
  apply (proj1 (proj2 (lists_models_at_most_once Scenario.offline_sdk
                         Scenario.with_key Scenario.no_files))
           (Some "sk-test")).
  vm_compute. reflexivity.
Defined.

(** C6 as stated fails: when client construction raises, the list-models
    operation is not invoked at all. *)
Lemma no_list_call_after_failed_construction :
  let o := run (Scenario.strict_sdk Scenario.two_models)
             Scenario.without_key Scenario.no_files in
  list_calls (trace (final o)) = []
  /\ exit_status o = 1
  /\ ~ (forall (w : platform) (env fs : gmap string string),
          list_calls (trace (final (run w env fs))) = [[]]).
Proof.
  split; [vm_compute; reflexivity|].
  split; [vm_compute; reflexivity|].
  intros H.
  specialize (H (Scenario.strict_sdk Scenario.two_models)
                Scenario.without_key Scenario.no_files).
  vm_compute in H. discriminate H.
Qed.





(** ** What the script consumes and what it changes *)

(** C8.  Two responses whose records agree, position by position, on what
    [m['id']] yields lead to the same standard output (and the same exit
    status and standard error), whatever else the records hold. *)
Theorem only_identifiers_are_consumed
    (w : platform) (env fs : gmap string string)
    (page1 page2 data1 data2 : pyval) (items1 items2 : list pyval) :
  getattr_model_data page1 = Ok data1 -> iterate data1 = Ok items1 ->
  getattr_model_data page2 = Ok data2 -> iterate data2 = Ok items2 ->
  Forall2 (fun m1 m2 => getitem m1 "id" = getitem m2 "id") items1 items2 ->
  stdout (final (run (with_response w page1) env fs))
    = stdout (final (run (with_response w page2) env fs))
  /\ observable (run (with_response w page1) env fs)
     = observable (run (with_response w page2) env fs).
Proof.
  intros HD1 HI1 HD2 HI2 Hids. unfold observable. unfold_script.
  destruct (Anthropic w (env !! "ANTHROPIC_API_KEY")) as [c|e]; simpl;
    [|easy].
  rewrite HD1, HD2; simpl. rewrite HI1, HI2; simpl.
  rewrite (for_each_effect (with_response w page1) items1).
  rewrite (for_each_effect (with_response w page2) items2).
  pose proof (loop_same_identifiers (with_response w page1)
                (with_response w page2) items1 items2
                (fun v => eq_refl) Hids) as Hsame.
  destruct (loop_effect (with_response w page1) items1) as [[r1 t1] evs1].
  destruct (loop_effect (with_response w page2) items2) as [[r2 t2] evs2].
  simpl in Hsame. injection Hsame as -> ->.
  destruct r2; easy.
Qed.

Lemma only_identifiers_are_consumed_witness :
  let w := Scenario.strict_sdk [] in
  let page1 := Scenario.page_of (map Scenario.record_of Scenario.two_models) in
  let page2 :=
    PyObject [("model_data",
               PyList (map Scenario.bare_record_of Scenario.two_models))] in
  page1 <> page2
  /\ stdout (final (run (with_response w page1) Scenario.with_key
                      Scenario.no_files))
     = stdout (final (run (with_response w page2) Scenario.with_key
                        Scenario.no_files)).
Proof.
  split; [discriminate|].
  apply (only_identifiers_are_consumed (Scenario.strict_sdk [])
           Scenario.with_key Scenario.no_files
           (Scenario.page_of (map Scenario.record_of Scenario.two_models))
           (PyObject [("model_data",
              PyList (map Scenario.bare_record_of Scenario.two_models))])
           (PyList (map Scenario.record_of Scenario.two_models))
           (PyList (map Scenario.bare_record_of Scenario.two_models))
           (map Scenario.record_of Scenario.two_models)
           (map Scenario.bare_record_of Scenario.two_models)).
  - reflexivity.
  - reflexivity.
  - reflexivity.
  - reflexivity.
  - repeat constructor.
Defined.




(** ** Termination of the loop *)




(** ** Further properties of the loop *)

Section LoopMore.

Variable w : platform.

(** The loop stops at the first item on which [m['id']] raises. *)
Lemma loop_stops (good vs rest : list pyval) (bad : pyval) (e : exn) :
  Forall2 (fun m v => getitem m "id" = Ok v) good vs ->
  getitem bad "id" = Raise e ->
  exists evs,
    loop_effect w (good ++ bad :: rest)
      = (Some e, join (map (text_of w) vs), evs)
    /\ visits evs = good ++ [bad]
    /\ printed evs = map (text_of w) vs.
Proof.
  intros Hgood Hbad.
  induction Hgood as [|m v good vs Hm _ (evs & IH & Hvis & Hpr)]; simpl.
  - rewrite Hbad. eexists. repeat split.
  - rewrite Hm, IH. eexists. split; [|split].
    + reflexivity.
    + unfold visits in *. simpl. now rewrite Hvis.
    + unfold printed in *. simpl. now rewrite Hpr.
Qed.

(** The text printed by the loop is empty or ends with a newline, and the
    loop prints once per item visited, except the one it stopped at. *)
Lemma loop_boundary (items : list pyval) :
  let '(r, text, evs) := loop_effect w items in
  (text = "" \/ exists s, text = s +:+ newline)
  /\ length (visits evs)
     = (length (printed evs) + match r with Some _ => 1 | None => 0 end)%nat.
Proof.
  induction items as [|m rest IH]; simpl; [auto|].
  destruct (getitem m "id") as [v|e]; [|auto].
  destruct (loop_effect w rest) as [[r text] evs].
  destruct IH as [Htext Hlen]. unfold visits, printed in *. simpl. split.
  - right. destruct Htext as [->|[s ->]].
    + exists (py_str w v). unfold line_of. now rewrite append_empty_r.
    + exists (line_of (py_str w v) +:+ s). now rewrite append_assoc.
  - now rewrite Hlen.
Qed.

End LoopMore.

(** ** Partial output, odd identifiers, unreadable responses *)

(** X1.  When [m['id']] raises on an item of the collection, the
    identifiers of the items before it stay on standard output, the items
    after it are never visited, and the process exits with status 1
    reporting that exception. *)
Theorem output_kept_up_to_bad_item
    (w : platform) (env fs : gmap string string) (c : client w)
    (page data bad : pyval) (good vs rest : list pyval) (e : exn) :
  Anthropic w (env !! KEY) = Ok c ->
  models_list w c [] = Ok page ->
  getattr_model_data page = Ok data ->
  iterate data = Ok (good ++ bad :: rest) ->
  Forall2 (fun m v => getitem m "id" = Ok v) good vs ->
  getitem bad "id" = Raise e ->
  let o := run w env fs in
  exit_status o = 1
  /\ stdout (final o) = join (map (text_of w) vs)
  /\ stderr (final o) = [e]
  /\ visits (trace (final o)) = good ++ [bad].
Proof.
  intros HA HL HD HI Hgood Hbad. unfold_script.
  rewrite HA; simpl. rewrite HL; simpl. rewrite HD; simpl.
  rewrite HI; simpl.
  destruct (loop_stops w good vs rest bad e Hgood Hbad)
    as (evs & Hloop & Hvis & _).
  rewrite (for_each_effect w (good ++ bad :: rest)), Hloop. simpl.
  repeat split. exact Hvis.
Qed.

Lemma output_kept_up_to_bad_item_witness :
  let o := run (with_response (Scenario.strict_sdk [])
                  (Scenario.page_of Edge.broken_items))
             Scenario.with_key Scenario.no_files in
  exit_status o = 1
  /\ stdout (final o) = line_of "claude-3-opus" +:+ line_of "claude-3-haiku"
  /\ stderr (final o) = [TypeError]
  /\ visits (trace (final o)) = Edge.good_records ++ [PyStr "claude-3-sonnet"].
Proof.
  apply (output_kept_up_to_bad_item
           (with_response (Scenario.strict_sdk [])
              (Scenario.page_of Edge.broken_items))
           Scenario.with_key Scenario.no_files (Some "sk-test")
           (Scenario.page_of Edge.broken_items) (PyList Edge.broken_items)
           (PyStr "claude-3-sonnet") Edge.good_records
           [PyStr "claude-3-opus"; PyStr "claude-3-haiku"]
           [Scenario.record_of "claude-2"] TypeError).
  - vm_compute. reflexivity.
  - reflexivity.
  - reflexivity.
  - reflexivity.
  - repeat constructor.
  - reflexivity.
Defined.

(** X3.  On every run the client constructor is called exactly once, as
    the second operation, with exactly what [os.getenv] returned: the
    variable's value unchanged (the empty string included), or [None]. *)
Theorem credential_passed_verbatim
    (w : platform) (env fs : gmap string string) :
  let tr := trace (final (run w env fs)) in
  constructions tr = [env !! KEY]
  /\ take 2 tr
     = [Ev (OpGetenv KEY) None;
        Ev (OpAnthropic (env !! KEY)) (raised (Anthropic w (env !! KEY)))].
Proof.
  unfold_script. cases_before_loop w env; try (split; reflexivity).
  summarize_loop w items.
  pose proof (loop_no_calls w items) as HN. rewrite Heqp in HN.
  destruct HN as (_ & _ & HN). unfold constructions in *.
  destruct r; simpl; rewrite HN; split; reflexivity.
Qed.

(** X4.  When the call succeeds but its result cannot be read (no
    [model_data] attribute, or a [model_data] that is not iterable), the
    remote call has been made once, nothing is printed, and the process
    exits with status 1 reporting that exception. *)
Theorem unreadable_response_prints_nothing
    (w : platform) (env fs : gmap string string) (c : client w)
    (page : pyval) (e : exn) :
  Anthropic w (env !! KEY) = Ok c ->
  models_list w c [] = Ok page ->
  (getattr_model_data page = Raise e
   \/ exists data, getattr_model_data page = Ok data
                   /\ iterate data = Raise e) ->
  let o := run w env fs in
  exit_status o = 1
  /\ stdout (final o) = ""
  /\ stderr (final o) = [e]
  /\ list_calls (trace (final o)) = [[]]
  /\ visits (trace (final o)) = [].
Proof.
  intros HA HL Hbad. unfold_script. rewrite HA; simpl. rewrite HL; simpl.
  destruct Hbad as [HD|(data & HD & HI)]; rewrite HD; simpl.
  - easy.
  - rewrite HI; simpl. easy.
Qed.

Lemma unreadable_response_prints_nothing_witness :
  let o := run (with_response (Scenario.strict_sdk []) Edge.null_page)
             Scenario.with_key Scenario.no_files in
  exit_status o = 1 /\ stdout (final o) = ""
  /\ stderr (final o) = [TypeError]
  /\ list_calls (trace (final o)) = [[]]
  /\ visits (trace (final o)) = [].
Proof.
  apply (unreadable_response_prints_nothing
           (with_response (Scenario.strict_sdk []) Edge.null_page)
           Scenario.with_key Scenario.no_files (Some "sk-test")
           Edge.null_page TypeError).
  - vm_compute. reflexivity.
  - reflexivity.
  - right. exists PyNone. split; reflexivity.
Defined.

(** X5.  The credential's value does not reach the output by way of the
    script: for a given response, two runs with different values of the
    variable, both accepted by the client constructor, have the same exit
    status, standard output and standard error. *)
Theorem output_independent_of_key_value
    (w : platform) (page : pyval) (env1 env2 fs : gmap string string)
    (c1 c2 : client w) :
  Anthropic w (env1 !! KEY) = Ok c1 ->
  Anthropic w (env2 !! KEY) = Ok c2 ->
  observable (run (with_response w page) env1 fs)
    = observable (run (with_response w page) env2 fs).
Proof.
  intros HA1 HA2. unfold observable. unfold_script.
  rewrite HA1, HA2; simpl.
  destruct (getattr_model_data page) as [data|e]; simpl; [|reflexivity].
  destruct (iterate data) as [items|e]; simpl; [|reflexivity].
  rewrite !(for_each_effect (with_response w page) items).
  destruct (loop_effect (with_response w page) items) as [[[e|] text] evs];
    reflexivity.
Qed.

Lemma output_independent_of_key_value_witness :
  Scenario.with_key !! KEY <> Edge.with_other_key !! KEY
  /\ observable
       (run (with_response (Scenario.lenient_sdk [])
               (Scenario.page_of Edge.broken_items))
          Scenario.with_key Scenario.no_files)
     = observable
         (run (with_response (Scenario.lenient_sdk [])
                 (Scenario.page_of Edge.broken_items))
            Edge.with_other_key Scenario.no_files).
Proof.
  split; [vm_compute; discriminate|].
  apply (output_independent_of_key_value (Scenario.lenient_sdk [])
           (Scenario.page_of Edge.broken_items)
           Scenario.with_key Edge.with_other_key Scenario.no_files
           (Some "sk-test") (Some "sk-other")).
  - vm_compute. reflexivity.
  - vm_compute. reflexivity.
Defined.

(** X6.  A [model_data] that is a non-empty dict or a non-empty string is
    iterated (by key, by character), so the loop is entered once and
    [m['id']] raises [TypeError] on the first key or character: nothing is
    printed and the process exits with status 1. *)
Theorem mapping_or_text_as_collection
    (w : platform) (env fs : gmap string string) (c : client w)
    (page data : pyval) :
  Anthropic w (env !! KEY) = Ok c ->
  models_list w c [] = Ok page ->
  getattr_model_data page = Ok data ->
  ((exists k v kvs, data = PyDict ((k, v) :: kvs))
   \/ (exists ch s, data = PyStr (String ch s))) ->
  let o := run w env fs in
  exit_status o = 1
  /\ stdout (final o) = ""
  /\ stderr (final o) = [TypeError]
  /\ length (visits (trace (final o))) = 1%nat.
Proof.
  intros HA HL HD Hshape. unfold_script.
  rewrite HA; simpl. rewrite HL; simpl. rewrite HD; simpl.
  destruct Hshape as [(k & v & kvs & ->)|(ch & s & ->)]; simpl;
    unfold bind, body, bind, subscript, perform; simpl; easy.
Qed.

Lemma mapping_or_text_as_collection_witness :
  let o := run (with_response (Scenario.strict_sdk []) Edge.keyed_page)
             Scenario.with_key Scenario.no_files in
  exit_status o = 1 /\ stdout (final o) = ""
  /\ stderr (final o) = [TypeError]
  /\ length (visits (trace (final o))) = 1%nat.
Proof.
  apply (mapping_or_text_as_collection
           (with_response (Scenario.strict_sdk []) Edge.keyed_page)
           Scenario.with_key Scenario.no_files (Some "sk-test")
           Edge.keyed_page
           (PyDict [("claude-3-opus", Scenario.record_of "claude-3-opus")])).
  - vm_compute. reflexivity.
  - reflexivity.
  - reflexivity.
  - left. eexists _, _, _. reflexivity.
Defined.

(** X7.  On every run, failing or not, standard output is empty or ends
    with a newline: output never stops in the middle of a line.  The
    script prints once per item visited, except for the item on which it
    failed: as many [print]s as visits when the process exits with status
    0, at most one fewer otherwise. *)
Theorem output_ends_at_line_boundary
    (w : platform) (env fs : gmap string string) :
  let o := run w env fs in
  (stdout (final o) = "" \/ exists s, stdout (final o) = s +:+ newline)
  /\ (length (printed (trace (final o)))
      <= length (visits (trace (final o)))
      <= length (printed (trace (final o))) + 1)%nat
  /\ (exit_status o = 0 ->
      length (printed (trace (final o)))
      = length (visits (trace (final o)))).
Proof.
  unfold_script. cases_before_loop w env.
  1: { summarize_loop w items.
       pose proof (loop_boundary w items) as HB. rewrite Heqp in HB.
       destruct HB as [Htext Hlen]. unfold visits, printed in *.
       destruct r as [e|]; simpl; rewrite Hlen;
         (split; [exact Htext|]); split; try lia; try easy. }
  all: split; [left; reflexivity|]; split; [simpl; lia|easy].
Qed.

Lemma output_ends_at_line_boundary_witness :
  let o := run (Scenario.strict_sdk Scenario.two_models)
             Scenario.with_key Scenario.no_files in
  exit_status o = 0
  /\ length (printed (trace (final o))) = length (visits (trace (final o))).
Proof.
  split; [vm_compute; reflexivity|].
  apply (output_ends_at_line_boundary
           (Scenario.strict_sdk Scenario.two_models)
           Scenario.with_key Scenario.no_files).
  vm_compute. reflexivity.
Defined.
